(** * vite-plugin-qwik-logger: a shallow embedding of the plugin's hooks

    The plugin of [src/plugins/vite-plugin-qwik-logger.ts] is a closure over
    six variables and eleven hooks that the host (Vite / Rollup) calls.  The
    hooks are embedded as computations over the closed-over variables and the
    console; the wall clock ([new Date().toISOString()]) is an input of the
    hooks that read it. *)

From Stdlib Require Import String Ascii List Bool Arith Lia.
Import ListNotations.
Local Open Scope string_scope.

(** ** The JavaScript runtime, as far as the plugin uses it *)

Module Js.

(** Characters that a string literal of this file cannot hold. *)
Definition NUL : ascii := "000"%char.
Definition TAB : ascii := "009"%char.
Definition LF : ascii := "010"%char.
Definition DQ : ascii := "034"%char.

Definition chr (a : ascii) : string := String a EmptyString.

(** [a === b] on two strings. *)
Definition strict_eq (a b : string) : bool := String.eqb a b.

(** [Array.prototype.join] on an array of strings. *)
Fixpoint join (sep : string) (xs : list string) : string :=
  match xs with
  | [] => EmptyString
  | [x] => x
  | x :: rest => x ++ sep ++ join sep rest
  end.

(** The regular expression [/\.(js|ts)$/], tried at the start of [s]: a
    dot, then [js] or [ts], then the end of the input (there is no [m]
    flag, so [$] is the end of the string). *)
Definition dot_js_ts_here (s : string) : bool :=
  match s with
  | String d (String a (String b EmptyString)) =>
      Ascii.eqb d "."%char
      && (Ascii.eqb a "j"%char || Ascii.eqb a "t"%char)
      && Ascii.eqb b "s"%char
  | _ => false
  end.

(** [/\.(js|ts)$/.test(s)]: the pattern is not anchored on the left, so
    the matcher tries every start index in turn. *)
Fixpoint test_dot_js_ts (s : string) : bool :=
  dot_js_ts_here s ||
  match s with
  | EmptyString => false
  | String _ rest => test_dot_js_ts rest
  end.

(** [s.repeat]-style helper for the indentation of the template literal. *)
Fixpoint replicate (n : nat) (a : ascii) : string :=
  match n with
  | O => EmptyString
  | S k => String a (replicate k a)
  end.


(** [s] holds the character [a]. *)
Fixpoint has_char (a : ascii) (s : string) : bool :=
  match s with
  | EmptyString => false
  | String b rest => Ascii.eqb b a || has_char a rest
  end.

(** [s.split(LF)]: the lines of a text. *)
Fixpoint lines (s : string) : list string :=
  match s with
  | EmptyString => [EmptyString]
  | String a rest =>
      if Ascii.eqb a LF then EmptyString :: lines rest
      else match lines rest with
           | [] => [chr a]
           | l :: ls => String a l :: ls
           end
  end.

(** [part] occurs in [whole]. *)
Definition occurs (part whole : string) : Prop :=
  exists before after, whole = before ++ part ++ after.

(** A path of the host's file system: no file name holds the NUL
    character. *)
Definition file_path (p : string) : Prop := has_char NUL p = false.

Definition is_digit (a : ascii) : bool :=
  Nat.leb 48 (nat_of_ascii a) && Nat.leb (nat_of_ascii a) 57.

(** [s] has the shape of [picture], where a [d] of the picture stands for
    any decimal digit and every other character for itself. *)
Fixpoint has_shape (picture s : string) : bool :=
  match picture, s with
  | EmptyString, EmptyString => true
  | String p picture', String a s' =>
      (if Ascii.eqb p "d"%char then is_digit a else Ascii.eqb a p)
      && has_shape picture' s'
  | _, _ => false
  end.

(** The ISO-8601 form that [Date.prototype.toISOString] prints for the
    years 0000 to 9999. *)
Definition iso8601 (s : string) : bool :=
  has_shape "dddd-dd-ddTdd:dd:dd.dddZ" s.

End Js.

(** ** The closure of [qwikLogger] and its hooks *)

Module QwikLogger.
Import Js.

(** The variables [qwikLogger] closes over that hold run-time data.
    [buildTime] is a [const] of the source; it is kept in the record with
    the [let] variables so that its immutability is a theorem about the
    hooks and not an artefact of the model. *)
Record Closure : Type := mkClosure {
  buildTime : string;
  isDev : bool;
  pluginNames : list string;
  viteMode : string;
  viteCommand : string;
  viteConfigRoot : string
}.

(** What a hook call leaves behind: its return value, the closure after the
    call and the messages it passed to [console.log], one per call of
    [console.log], oldest first. *)
Record Outcome (A : Type) : Type := mkOutcome {
  returned : A;
  closure : Closure;
  console : list string
}.
Arguments mkOutcome {A} _ _ _.
Arguments returned {A} _.
Arguments closure {A} _.
Arguments console {A} _.

Definition Hook (A : Type) : Type := Closure -> Outcome A.

Definition ret {A} (a : A) : Hook A := fun c => mkOutcome a c [].

Definition bind {A B} (m : Hook A) (k : A -> Hook B) : Hook B :=
  fun c =>
    let o1 := m c in
    let o2 := k (returned o1) (closure o1) in
    mkOutcome (returned o2) (closure o2) (console o1 ++ console o2).

Definition read : Hook Closure := fun c => mkOutcome c c [].

Definition assign (f : Closure -> Closure) : Hook unit :=
  fun c => mkOutcome tt (f c) [].

Definition console_log (msg : string) : Hook unit :=
  fun c => mkOutcome tt c [msg].

Notation "x <- m ;; k" := (bind m (fun x => k))
  (at level 61, m at next level, right associativity).
Notation "m ;;; k" := (bind m (fun _ => k))
  (at level 61, right associativity).

(** Assignments to the [let] variables. *)
Definition set_isDev (b : bool) (c : Closure) : Closure :=
  mkClosure (buildTime c) b (pluginNames c) (viteMode c) (viteCommand c)
            (viteConfigRoot c).
Definition set_pluginNames (l : list string) (c : Closure) : Closure :=
  mkClosure (buildTime c) (isDev c) l (viteMode c) (viteCommand c)
            (viteConfigRoot c).
Definition set_viteMode (s : string) (c : Closure) : Closure :=
  mkClosure (buildTime c) (isDev c) (pluginNames c) s (viteCommand c)
            (viteConfigRoot c).
Definition set_viteCommand (s : string) (c : Closure) : Closure :=
  mkClosure (buildTime c) (isDev c) (pluginNames c) (viteMode c) s
            (viteConfigRoot c).
Definition set_viteConfigRoot (s : string) (c : Closure) : Closure :=
  mkClosure (buildTime c) (isDev c) (pluginNames c) (viteMode c)
            (viteCommand c) s.

(** Constants of the closure. *)
Definition virtualModuleId : string := "virtual:vite-info".
Definition resolvedVirtualModuleId : string := chr NUL ++ virtualModuleId.
Definition pluginName : string := "vite-plugin-qwik-logger".

(** [qwikLogger()]: the closure as the factory leaves it.  [now] is what
    [new Date().toISOString()] returned when the factory ran. *)
Definition qwikLogger (now : string) : Closure :=
  {| buildTime := now;
     isDev := false;
     pluginNames := [];
     viteMode := EmptyString;
     viteCommand := EmptyString;
     viteConfigRoot := EmptyString |}.

(** [config(_, { command })] *)
Definition config (command : string) : Hook unit :=
  assign (set_isDev (strict_eq command "serve")).

(** [resolveId(source)]; [None] is [null]. *)
Definition resolveId (source : string) : Hook (option string) :=
  if strict_eq source virtualModuleId then ret (Some resolvedVirtualModuleId)
  else ret None.


(** The part of the host's [ResolvedConfig] that [configResolved] reads. *)
Record PluginEntry : Type := mkPluginEntry { name : string }.
Record ResolvedConfig : Type := mkResolvedConfig {
  plugins : list PluginEntry;
  mode : string;
  command : string;
  root : string
}.

(** The [change] argument of [watchChange]. *)
Record Change : Type := mkChange { event : string }.

(** The line break and indentation that open each line of the template
    literal of [load], and the run that ends it (a line break, eight
    spaces, two tabs). *)
Definition template_indent : string := String LF (replicate 5 TAB).
Definition template_tail : string :=
  String LF (replicate 8 " "%char ++ replicate 2 TAB).

(** [load(id)] *)
Definition load (id : string) : Hook (option string) :=
  c <- read ;;
  if strict_eq id resolvedVirtualModuleId then
    let pluginsString :=
      join "," (map (fun p => "'" ++ p ++ "'") (pluginNames c)) in
    ret (Some (
      template_indent
      ++ "export const getTimestamp = () => new Date().toISOString();"
      ++ template_indent
      ++ "export const buildTime = " ++ chr DQ ++ buildTime c ++ chr DQ ++ ";"
      ++ template_indent
      ++ "export const pluginNames = [" ++ pluginsString ++ "];"
      ++ template_indent
      ++ "export const viteMode = " ++ chr DQ ++ viteMode c ++ chr DQ ++ ";"
      ++ template_indent
      ++ "export const viteCommand = " ++ chr DQ ++ viteCommand c ++ chr DQ ++ ";"
      ++ template_indent
      ++ "export const viteConfigRoot = " ++ chr DQ ++ viteConfigRoot c ++ chr DQ ++ ";"
      ++ template_tail))
  else ret None.

(** [transform(code, id)]; [now] is what [new Date().toISOString()]
    returns if the hook gets to call it. *)
Definition transform (now code id : string) : Hook (option string) :=
  c <- read ;;
  if negb (isDev c) then ret None
  else if test_dot_js_ts id then
    let timestamp := now in
    ret (Some (code ++ chr LF ++ "// Last updated: " ++ timestamp))
  else ret None.

(** [watchChange(id, change)] *)
Definition watchChange (now id : string) (change : Change) : Hook unit :=
  c <- read ;;
  if negb (isDev c) then ret tt
  else
    let timestamp := now in
    console_log ("[" ++ timestamp ++ "] File " ++ event change ++ ": " ++ id).

(** [configResolved(config)] *)
Definition configResolved (cfg : ResolvedConfig) : Hook unit :=
  assign (set_pluginNames (map name (plugins cfg))) ;;;
  assign (set_viteMode (mode cfg)) ;;;
  assign (set_viteCommand (command cfg)) ;;;
  assign (set_viteConfigRoot (root cfg)).

(** [buildStart()], [buildEnd()], [closeBundle()] *)
Definition buildStart : Hook unit :=
  console_log (chr LF ++ "[" ++ pluginName ++ "] Building...").
Definition buildEnd : Hook unit :=
  console_log (chr LF ++ "[" ++ pluginName ++ "] Done building").
Definition closeBundle : Hook unit :=
  console_log (chr LF ++ "[" ++ pluginName ++ "] Build is complete. Goodbye!"
               ++ chr LF).

(** [generateBundle(_, bundle)]; [bundle] is given by its keys in the
    order in which [for ... in] enumerates them. *)
Fixpoint log_file_names (bundle : list string) : Hook unit :=
  match bundle with
  | [] => ret tt
  | fileName :: rest =>
      console_log (" - " ++ fileName) ;;; log_file_names rest
  end.
Definition generateBundle (bundle : list string) : Hook unit :=
  console_log (chr LF ++ "[" ++ pluginName ++ "] Output bundle contains:") ;;;
  log_file_names bundle.

(** [handleHotUpdate({ file })] *)
Definition handleHotUpdate (file : string) : Hook unit :=
  console_log ("[HMR] Reloading due to file change: " ++ file).

(** *** The host's side: a session is a sequence of hook calls *)

Inductive Call : Type :=
| CallConfig (cmd : string)
| CallResolveId (source : string)
| CallLoad (id : string)
| CallTransform (now code id : string)
| CallWatchChange (now id : string) (change : Change)
| CallConfigResolved (cfg : ResolvedConfig)
| CallBuildStart
| CallBuildEnd
| CallGenerateBundle (bundle : list string)
| CallCloseBundle
| CallHandleHotUpdate (file : string).

(** What a hook hands back to the host: nothing, or a string or [null]. *)
Inductive Reply : Type :=
| Void
| Text (r : option string).

Definition void (h : Hook unit) : Hook Reply := h ;;; ret Void.
Definition text (h : Hook (option string)) : Hook Reply :=
  r <- h ;; ret (Text r).

Definition invoke (call : Call) : Hook Reply :=
  match call with
  | CallConfig cmd => void (config cmd)
  | CallResolveId source => text (resolveId source)
  | CallLoad id => text (load id)
  | CallTransform now code id => text (transform now code id)
  | CallWatchChange now id change => void (watchChange now id change)
  | CallConfigResolved cfg => void (configResolved cfg)
  | CallBuildStart => void buildStart
  | CallBuildEnd => void buildEnd
  | CallGenerateBundle bundle => void (generateBundle bundle)
  | CallCloseBundle => void closeBundle
  | CallHandleHotUpdate file => void (handleHotUpdate file)
  end.

Fixpoint session (calls : list Call) : Hook (list Reply) :=
  match calls with
  | [] => ret []
  | call :: rest =>
      r <- invoke call ;;
      rs <- session rest ;;
      ret (r :: rs)
  end.


(** *** The words of the specification, for comparison with [load] *)

(** A string constant of the generated module: the value between double
    quotes. *)
Definition string_constant (value : string) : string :=
  chr DQ ++ value ++ chr DQ.

(** A literal array of single-quoted strings. *)
Fixpoint array_items (xs : list string) : string :=
  match xs with
  | [] => EmptyString
  | x :: rest =>
      "'" ++ x ++ "'" ++
      match rest with
      | [] => EmptyString
      | _ :: _ => "," ++ array_items rest
      end
  end.
Definition array_literal (xs : list string) : string :=
  "[" ++ array_items xs ++ "]".

(** The export statement of one constant. *)
Definition export_const (ident value : string) : string :=
  "export const " ++ ident ++ " = " ++ value ++ ";".

(** The statements of the virtual module, in order. *)
Definition module_statements (c : Closure) : list string :=
  [ "export const getTimestamp = () => new Date().toISOString();";
    export_const "buildTime" (string_constant (buildTime c));
    export_const "pluginNames" (array_literal (pluginNames c));
    export_const "viteMode" (string_constant (viteMode c));
    export_const "viteCommand" (string_constant (viteCommand c));
    export_const "viteConfigRoot" (string_constant (viteConfigRoot c)) ].

(** Statements laid out one per line, as the template literal does. *)
Fixpoint lay_out (statements : list string) : string :=
  match statements with
  | [] => template_tail
  | st :: rest => template_indent ++ st ++ lay_out rest
  end.

(** The marker line that [transform] appends. *)
Definition marker (timestamp : string) : string :=
  "// Last updated: " ++ timestamp.

(** [id] ends in [.js] or [.ts]. *)
Definition js_or_ts (id : string) : Prop :=
  exists stem, id = stem ++ ".js" \/ id = stem ++ ".ts".

(** No call of [configResolved] among [calls]. *)
Fixpoint before_configResolved (calls : list Call) : bool :=
  match calls with
  | [] => true
  | CallConfigResolved _ :: _ => false
  | _ :: rest => before_configResolved rest
  end.

(** Two closures that agree on everything but [isDev]. *)
Definition same_metadata (c c' : Closure) : Prop :=
  buildTime c' = buildTime c /\ pluginNames c' = pluginNames c /\
  viteMode c' = viteMode c /\ viteCommand c' = viteCommand c /\
  viteConfigRoot c' = viteConfigRoot c.


(** *** Views of a session, for the statements about the host's call order *)

(** The command of the last [config] call among [calls], if any. *)
Fixpoint last_config (calls : list Call) : option string :=
  match calls with
  | [] => None
  | call :: rest =>
      match last_config rest with
      | Some cmd => Some cmd
      | None => match call with CallConfig cmd => Some cmd | _ => None end
      end
  end.

(** The argument of the last [configResolved] call among [calls], if any. *)
Fixpoint last_configResolved (calls : list Call) : option ResolvedConfig :=
  match calls with
  | [] => None
  | call :: rest =>
      match last_configResolved rest with
      | Some cfg => Some cfg
      | None => match call with CallConfigResolved cfg => Some cfg | _ => None end
      end
  end.

(** The hooks whose body is calls of [console.log] and nothing else
    ([watchChange] behind its [isDev] test). *)
Definition logs_only (call : Call) : bool :=
  match call with
  | CallWatchChange _ _ _ | CallBuildStart | CallBuildEnd
  | CallGenerateBundle _ | CallCloseBundle | CallHandleHotUpdate _ => true
  | _ => false
  end.

(** The hooks that answer the host and neither assign nor log. *)
Definition answers_only (call : Call) : bool :=
  match call with
  | CallResolveId _ | CallLoad _ | CallTransform _ _ _ => true
  | _ => false
  end.

Definition is_watchChange (call : Call) : bool :=
  match call with
  | CallWatchChange _ _ _ => true
  | _ => false
  end.

(** No [config] call with the command [serve] among [calls]. *)
Fixpoint never_serve (calls : list Call) : bool :=
  match calls with
  | [] => true
  | CallConfig cmd :: rest => negb (strict_eq cmd "serve") && never_serve rest
  | _ :: rest => never_serve rest
  end.

(** The host hands [transform] its own result again, once per clock reading
    of [nows]; a [null] answer leaves the code as it is for the host, and
    here ends the chain. *)
Fixpoint retransform (nows : list string) (code id : string) : Hook (option string) :=
  match nows with
  | [] => ret (Some code)
  | now :: later =>
      r <- transform now code id ;;
      match r with
      | Some code' => retransform later code' id
      | None => ret None
      end
  end.


(** [src/types/virtual-modules.d.ts]: the names that the ambient declaration
    of the module [virtual:vite-info] promises to importers, in the order
    of the file. *)
Definition declared_module : string := "virtual:vite-info".
Definition declared_exports : list string :=
  [ "buildTime"; "getTimestamp"; "pluginNames"; "viteMode"; "viteCommand";
    "viteConfigRoot" ].

End QwikLogger.

Import Js QwikLogger.

(** ** Facts about strings *)

Section StringFacts.

Lemma append_assoc (a b c : string) : (a ++ b) ++ c = a ++ b ++ c.
Proof. induction a as [|x a IH]; simpl; [reflexivity | now rewrite IH]. Qed.

Lemma append_empty_r (a : string) : a ++ EmptyString = a.
Proof. induction a as [|x a IH]; simpl; [reflexivity | now rewrite IH]. Qed.

Lemma has_char_append (x : ascii) (a b : string) :
  has_char x (a ++ b) = has_char x a || has_char x b.
Proof.
  induction a as [|y a IH]; simpl; [reflexivity |].
  rewrite IH. now rewrite orb_assoc.
Qed.

Lemma occurs_intro (before part after : string) :
  occurs part (before ++ part ++ after).
Proof. now exists before, after. Qed.

Lemma occurs_append_l (part a b : string) : occurs part b -> occurs part (a ++ b).
Proof.
  intros (before & after & ->). exists (a ++ before), after.
  now rewrite append_assoc.
Qed.

Lemma occurs_append_r (part a b : string) : occurs part a -> occurs part (a ++ b).
Proof.
  intros (before & after & ->). exists before, (after ++ b).
  now rewrite !append_assoc.
Qed.

Lemma occurs_refl (a : string) : occurs a a.
Proof. exists EmptyString, EmptyString. simpl. now rewrite append_empty_r. Qed.

(** The lines of a text never form the empty list. *)
Lemma lines_not_nil (s : string) : lines s <> [].
Proof.
  destruct s as [|a s]; simpl; [discriminate |].
  destruct (Ascii.eqb a LF); [discriminate |].
  destruct (lines s); discriminate.
Qed.

(** A text without a line break is its own single line. *)
Lemma lines_single (s : string) : has_char LF s = false -> lines s = [s].
Proof.
  induction s as [|a s IH]; simpl; [reflexivity |].
  intros H. apply orb_false_iff in H as [Ha Hs].
  rewrite Ha, (IH Hs). reflexivity.
Qed.

(** Splitting at a line break: the lines before it, then the lines after. *)
Lemma lines_break (a b : string) :
  lines (a ++ String LF b) = (lines a ++ lines b)%list.
Proof.
  induction a as [|x a IH]; simpl.
  - reflexivity.
  - rewrite IH. destruct (Ascii.eqb x LF); [reflexivity |].
    destruct (lines a) as [|l ls] eqn:E; [now apply lines_not_nil in E |].
    reflexivity.
Qed.

(** A text of a given shape holds only the characters its picture allows. *)
Lemma has_shape_no_char (x : ascii) (picture s : string) :
  is_digit x = false -> has_char x picture = false ->
  has_shape picture s = true -> has_char x s = false.
Proof.
  intros Hd. revert s.
  induction picture as [|p picture IH]; intros [|a s]; simpl; try discriminate.
  - reflexivity.
  - intros Hp Hs. apply orb_false_iff in Hp as [Hpx Hp].
    apply andb_true_iff in Hs as [Ha Hs].
    rewrite (IH s Hp Hs), orb_false_r.
    destruct (Ascii.eqb p "d"%char).
    + destruct (Ascii.eqb_spec a x) as [->|]; [congruence | reflexivity].
    + apply Ascii.eqb_eq in Ha. now subst a.
Qed.

Lemma iso8601_one_line (s : string) : iso8601 s = true -> has_char LF s = false.
Proof. apply has_shape_no_char; reflexivity. Qed.

(** The regular expression test is the suffix test. *)
Lemma dot_js_ts_here_iff (s : string) :
  dot_js_ts_here s = true <-> s = ".js" \/ s = ".ts".
Proof.
  split.
  - destruct s as [|d [|a [|b [|? ?]]]]; simpl; try discriminate.
    intros H. apply andb_true_iff in H as [H Hb].
    apply andb_true_iff in H as [Hd Ha].
    apply Ascii.eqb_eq in Hd, Hb. subst d b.
    apply orb_true_iff in Ha as [Ha|Ha]; apply Ascii.eqb_eq in Ha; subst a;
      [now left | now right].
  - intros [-> | ->]; reflexivity.
Qed.

Lemma test_dot_js_ts_iff (id : string) :
  test_dot_js_ts id = true <-> js_or_ts id.
Proof.
  split.
  - induction id as [|a id IH].
    + discriminate.
    + cbn [test_dot_js_ts]. intros H. apply orb_true_iff in H as [H|H].
      * apply dot_js_ts_here_iff in H. exists EmptyString. simpl.
        destruct H as [-> | ->]; [now left | now right].
      * destruct (IH H) as (stem & Hs). exists (String a stem).
        simpl. destruct Hs as [-> | ->]; [now left | now right].
  - intros (stem & H). revert id H.
    induction stem as [|a stem IH]; intros id H.
    + simpl in H. destruct H as [-> | ->]; reflexivity.
    + simpl in H.
      assert (exists rest, id = String a rest /\ (rest = stem ++ ".js" \/ rest = stem ++ ".ts"))
        as (rest & -> & Hr).
      { destruct H as [-> | ->]; eexists; split; eauto. }
      change (dot_js_ts_here (String a rest) || test_dot_js_ts rest = true).
      rewrite (IH rest Hr). apply orb_true_r.
Qed.

End StringFacts.

(** ** The virtual module: [resolveId] and [load] *)

Section VirtualModule.

Lemma resolvedVirtualModuleId_eq :
  resolvedVirtualModuleId = String NUL "virtual:vite-info".
Proof. reflexivity. Qed.

(** The sentinel keeps the resolved identifier apart from every path. *)
Lemma resolved_id_not_a_path (path : string) :
  file_path path -> resolvedVirtualModuleId <> path.
Proof.
  unfold file_path. intros Hp <-. discriminate Hp.
Qed.

(** C1: [resolveId] answers the reserved identifier, the module's name behind
    a NUL character, for the source [virtual:vite-info] and [null] for any
    other source; the identifier is no path of the file system, and the
    answer depends on the source alone. *)
Theorem resolveId_spec (source : string) (c : Closure) :
  (source = "virtual:vite-info" ->
     returned (resolveId source c) = Some (String NUL "virtual:vite-info")) /\
  (source <> "virtual:vite-info" -> returned (resolveId source c) = None) /\
  (forall path, file_path path -> String NUL "virtual:vite-info" <> path) /\
  (forall c', returned (resolveId source c') = returned (resolveId source c)).
Proof.
  unfold resolveId, strict_eq, virtualModuleId.
  repeat split.
  - intros ->. reflexivity.
  - intros H. apply String.eqb_neq in H. now rewrite H.
  - exact resolved_id_not_a_path.
  - intros c'. now destruct (String.eqb source "virtual:vite-info").
Qed.

Lemma resolveId_spec_witness :
  returned (resolveId "virtual:vite-info" (qwikLogger "2025-06-01T12:00:00.000Z"))
    = Some (String NUL "virtual:vite-info") /\
  returned (resolveId "./main.ts" (qwikLogger "2025-06-01T12:00:00.000Z")) = None /\
  String NUL "virtual:vite-info" <> "/proj/virtual:vite-info".
Proof.
  split; [|split].
  - apply (resolveId_spec "virtual:vite-info"). reflexivity.
  - apply (resolveId_spec "./main.ts"). discriminate.
  - apply (resolveId_spec "x" (qwikLogger EmptyString)). reflexivity.
Defined.

(** [join] after [map] writes the items of the array literal. *)
Lemma join_quoted_items (xs : list string) :
  join "," (map (fun p => "'" ++ p ++ "'") xs) = array_items xs.
Proof.
  induction xs as [|x [|y rest] IH].
  - reflexivity.
  - reflexivity.
  - change (("'" ++ x ++ "'") ++ "," ++ join "," (map (fun p => "'" ++ p ++ "'") (y :: rest))
            = "'" ++ x ++ "'" ++ "," ++ array_items (y :: rest)).
    rewrite IH. now rewrite !append_assoc.
Qed.

(** The template literal of [load] lays out the module's statements. *)
Lemma load_resolved (c : Closure) :
  load resolvedVirtualModuleId c
  = mkOutcome (Some (lay_out (module_statements c))) c [].
Proof.
  unfold load, bind, read, ret, strict_eq. cbn [returned closure console app].
  rewrite String.eqb_refl. cbn [returned closure console].
  rewrite join_quoted_items.
  unfold module_statements, lay_out, export_const, string_constant, array_literal.
  repeat rewrite append_assoc. reflexivity.
Qed.

Lemma load_other (id : string) (c : Closure) :
  id <> resolvedVirtualModuleId -> load id c = mkOutcome None c [].
Proof.
  intros H. apply String.eqb_neq in H.
  unfold load, bind, read, ret, strict_eq. cbn [returned closure console app].
  now rewrite H.
Qed.

Lemma occurs_lay_out (st : string) (statements : list string) :
  In st statements -> occurs st (lay_out statements).
Proof.
  induction statements as [|s rest IH]; cbn [lay_out In]; [contradiction |].
  intros [-> | H].
  - apply occurs_intro.
  - apply occurs_append_l, occurs_append_l, IH, H.
Qed.

End VirtualModule.

(** ** What each hook does to the closure *)

Section Frame.

Lemma same_metadata_refl (c : Closure) : same_metadata c c.
Proof. repeat split. Qed.

Lemma same_metadata_trans (a b c : Closure) :
  same_metadata a b -> same_metadata b c -> same_metadata a c.
Proof.
  unfold same_metadata. intros (?&?&?&?&?) (?&?&?&?&?).
  repeat split; congruence.
Qed.

Lemma config_outcome (cmd : string) (c : Closure) :
  config cmd c = mkOutcome tt (set_isDev (String.eqb cmd "serve") c) [].
Proof. reflexivity. Qed.

Lemma resolveId_closure (source : string) (c : Closure) :
  closure (resolveId source c) = c /\ console (resolveId source c) = [].
Proof.
  unfold resolveId. destruct (strict_eq source virtualModuleId); now split.
Qed.

Lemma load_closure (id : string) (c : Closure) :
  closure (load id c) = c /\ console (load id c) = [].
Proof.
  unfold load, bind, read. cbn [returned closure console].
  destruct (strict_eq id resolvedVirtualModuleId); now split.
Qed.

Lemma transform_closure (now code id : string) (c : Closure) :
  closure (transform now code id c) = c /\ console (transform now code id c) = [].
Proof.
  unfold transform, bind, read. cbn [returned closure console].
  destruct (isDev c); cbn [negb]; [destruct (test_dot_js_ts id) |]; now split.
Qed.

Lemma watchChange_closure (now id : string) (change : Change) (c : Closure) :
  closure (watchChange now id change c) = c.
Proof.
  unfold watchChange, bind, read. cbn [returned closure console].
  now destruct (isDev c).
Qed.

Lemma configResolved_outcome (cfg : ResolvedConfig) (c : Closure) :
  configResolved cfg c
  = mkOutcome tt
      (mkClosure (buildTime c) (isDev c) (map name (plugins cfg)) (mode cfg)
                 (command cfg) (root cfg)) [].
Proof. reflexivity. Qed.

Lemma log_file_names_closure (bundle : list string) (c : Closure) :
  closure (log_file_names bundle c) = c.
Proof.
  induction bundle as [|f rest IH]; [reflexivity |].
  cbn [log_file_names]. unfold bind, console_log.
  cbn [returned closure console]. exact IH.
Qed.

(** Every hook but [config] leaves [isDev] alone, and every hook but
    [configResolved] leaves the metadata alone; no hook writes [buildTime]. *)
Lemma invoke_buildTime (call : Call) (c : Closure) :
  buildTime (closure (invoke call c)) = buildTime c.
Proof.
  destruct call; unfold invoke, void, text, bind; cbn [returned closure console];
    try reflexivity.
  - now rewrite (proj1 (resolveId_closure _ _)).
  - now rewrite (proj1 (load_closure _ _)).
  - now rewrite (proj1 (transform_closure _ _ _ _)).
  - now rewrite watchChange_closure.
  - unfold generateBundle, bind, console_log. cbn [returned closure console].
    now rewrite log_file_names_closure.
Qed.

Lemma invoke_same_metadata (call : Call) (c : Closure) :
  before_configResolved [call] = true -> same_metadata c (closure (invoke call c)).
Proof.
  destruct call; unfold invoke, void, text, bind; cbn [returned closure console];
    intros H; try discriminate H; try apply same_metadata_refl.
  - unfold same_metadata. repeat split.
  - rewrite (proj1 (resolveId_closure _ _)). apply same_metadata_refl.
  - rewrite (proj1 (load_closure _ _)). apply same_metadata_refl.
  - rewrite (proj1 (transform_closure _ _ _ _)). apply same_metadata_refl.
  - rewrite watchChange_closure. apply same_metadata_refl.
  - unfold generateBundle, bind, console_log. cbn [returned closure console].
    rewrite log_file_names_closure. apply same_metadata_refl.
Qed.

Lemma session_cons (call : Call) (rest : list Call) (c : Closure) :
  returned (session (call :: rest) c)
    = returned (invoke call c) :: returned (session rest (closure (invoke call c)))
  /\ closure (session (call :: rest) c)
    = closure (session rest (closure (invoke call c))).
Proof. split; reflexivity. Qed.

Lemma session_buildTime (calls : list Call) (c : Closure) :
  buildTime (closure (session calls c)) = buildTime c.
Proof.
  revert c. induction calls as [|call rest IH]; intros c; [reflexivity |].
  rewrite (proj2 (session_cons call rest c)), IH. apply invoke_buildTime.
Qed.

Lemma session_length (calls : list Call) (c : Closure) :
  length (returned (session calls c)) = length calls.
Proof.
  revert c. induction calls as [|call rest IH]; intros c; [reflexivity |].
  rewrite (proj1 (session_cons call rest c)). simpl. now rewrite IH.
Qed.

Lemma before_configResolved_cons (call : Call) (rest : list Call) :
  before_configResolved (call :: rest) = true ->
  before_configResolved [call] = true /\ before_configResolved rest = true.
Proof. destruct call; simpl; intros H; (discriminate H || now split). Qed.

Lemma session_same_metadata (calls : list Call) (c : Closure) :
  before_configResolved calls = true ->
  same_metadata c (closure (session calls c)).
Proof.
  revert c. induction calls as [|call rest IH]; intros c H.
  - apply same_metadata_refl.
  - apply before_configResolved_cons in H as [H1 H2].
    rewrite (proj2 (session_cons call rest c)).
    eapply same_metadata_trans; [apply invoke_same_metadata, H1 | apply IH, H2].
Qed.

(** Each [load] of the reserved identifier in a session is answered with
    the module as some closure of that session's build time lays it out. *)
Lemma session_loads (calls : list Call) (c : Closure) (i : nat) :
  nth_error calls i = Some (CallLoad resolvedVirtualModuleId) ->
  exists c',
    buildTime c' = buildTime c /\
    nth_error (returned (session calls c)) i
      = Some (Text (Some (lay_out (module_statements c')))).
Proof.
  revert c i. induction calls as [|call rest IH]; intros c [|i] H;
    try discriminate H.
  - simpl in H. injection H as ->. exists c. split; [reflexivity |].
    rewrite (proj1 (session_cons _ _ _)). cbn [nth_error].
    unfold invoke, text, bind. cbn [returned]. now rewrite load_resolved.
  - simpl in H. destruct (IH (closure (invoke call c)) i H) as (c' & Hb & Hr).
    exists c'. split.
    + rewrite Hb. apply invoke_buildTime.
    + rewrite (proj1 (session_cons _ _ _)). exact Hr.
Qed.

End Frame.

(** ** The generated module *)

Section GeneratedModule.

(** C2: whatever the closure holds, [load] of the reserved identifier
    returns the module text whose [pluginNames] export is the array literal
    of the single-quoted plugin names and whose [buildTime], [viteMode],
    [viteCommand] and [viteConfigRoot] exports are the closure's values
    between double quotes, letter for letter; any other id gets [null]. *)
Theorem load_spec (c : Closure) :
  (exists text,
     returned (load resolvedVirtualModuleId c) = Some text /\
     text = lay_out (module_statements c) /\
     occurs (export_const "pluginNames" (array_literal (pluginNames c))) text /\
     occurs (export_const "buildTime" (string_constant (buildTime c))) text /\
     occurs (export_const "viteMode" (string_constant (viteMode c))) text /\
     occurs (export_const "viteCommand" (string_constant (viteCommand c))) text /\
     occurs (export_const "viteConfigRoot" (string_constant (viteConfigRoot c))) text) /\
  (forall id, id <> resolvedVirtualModuleId -> returned (load id c) = None).
Proof.
  split.
  - exists (lay_out (module_statements c)).
    rewrite load_resolved.
    repeat split; apply occurs_lay_out; unfold module_statements;
      cbn [In]; tauto.
  - intros id H. now rewrite (load_other id c H).
Qed.

(** The closure of the specification's example: [configResolved] has seen
    the plugins [a] and [b], the mode [development], the command [serve]
    and the root [/proj]. *)
Lemma load_spec_witness :
  let cfg := mkResolvedConfig [mkPluginEntry "a"; mkPluginEntry "b"]
                              "development" "serve" "/proj" in
  let c := closure (configResolved cfg
             (closure (config "serve" (qwikLogger "2025-06-01T12:00:00.000Z")))) in
  (exists text,
     returned (load resolvedVirtualModuleId c) = Some text /\
     occurs "export const pluginNames = ['a','b'];" text /\
     occurs ("export const buildTime = " ++ chr DQ ++ "2025-06-01T12:00:00.000Z"
             ++ chr DQ ++ ";") text /\
     occurs ("export const viteMode = " ++ chr DQ ++ "development" ++ chr DQ ++ ";") text /\
     occurs ("export const viteCommand = " ++ chr DQ ++ "serve" ++ chr DQ ++ ";") text /\
     occurs ("export const viteConfigRoot = " ++ chr DQ ++ "/proj" ++ chr DQ ++ ";") text) /\
  returned (load "virtual:vite-info" c) = None.
Proof.
  intros cfg c.
  destruct (load_spec c) as [(text & Ht & _ & Hp & Hb & Hm & Hc & Hr) Hother].
  split.
  - exists text. repeat split; assumption.
  - apply Hother. discriminate.
Defined.

(** The values are spliced as they are: a double quote in a value is not
    escaped and ends up between the quotes of the constant. *)
Example load_splices_verbatim :
  let c := set_viteMode ("a" ++ chr DQ ++ "b") (qwikLogger "2025-06-01T12:00:00.000Z") in
  exists text,
    returned (load resolvedVirtualModuleId c) = Some text /\
    occurs ("export const viteMode = " ++ chr DQ ++ "a" ++ chr DQ ++ "b" ++ chr DQ ++ ";") text.
Proof.
  intros c. eexists. rewrite load_resolved. split; [reflexivity |].
  apply occurs_lay_out. cbn [module_statements In]. tauto.
Qed.

(** C7: as long as [configResolved] has not run, whatever else has, [load]
    of the reserved identifier returns a module text and raises nothing: the
    text holds the empty array and three empty string constants. *)
Theorem load_before_configResolved (now : string) (calls : list Call) :
  before_configResolved calls = true ->
  returned (load resolvedVirtualModuleId (closure (session calls (qwikLogger now))))
  = Some (lay_out
      [ "export const getTimestamp = () => new Date().toISOString();";
        "export const buildTime = " ++ chr DQ ++ now ++ chr DQ ++ ";";
        "export const pluginNames = [];";
        "export const viteMode = " ++ chr DQ ++ chr DQ ++ ";";
        "export const viteCommand = " ++ chr DQ ++ chr DQ ++ ";";
        "export const viteConfigRoot = " ++ chr DQ ++ chr DQ ++ ";" ]).
Proof.
  intros H.
  destruct (session_same_metadata calls (qwikLogger now) H)
    as (Hb & Hp & Hm & Hc & Hr).
  rewrite load_resolved. cbn [returned]. unfold module_statements.
  rewrite Hb, Hp, Hm, Hc, Hr. cbn [qwikLogger buildTime pluginNames viteMode
    viteCommand viteConfigRoot].
  unfold export_const, string_constant. repeat rewrite append_assoc.
  reflexivity.
Qed.

Lemma load_before_configResolved_witness :
  returned (load resolvedVirtualModuleId
     (closure (session [CallConfig "serve"; CallResolveId "virtual:vite-info";
                        CallTransform "2025-06-01T12:00:01.000Z" "const x = 1;" "foo.ts"]
                       (qwikLogger "2025-06-01T12:00:00.000Z"))))
  = Some (lay_out
      [ "export const getTimestamp = () => new Date().toISOString();";
        "export const buildTime = " ++ chr DQ ++ "2025-06-01T12:00:00.000Z" ++ chr DQ ++ ";";
        "export const pluginNames = [];";
        "export const viteMode = " ++ chr DQ ++ chr DQ ++ ";";
        "export const viteCommand = " ++ chr DQ ++ chr DQ ++ ";";
        "export const viteConfigRoot = " ++ chr DQ ++ chr DQ ++ ";" ]).
Proof.
  apply (load_before_configResolved "2025-06-01T12:00:00.000Z"). reflexivity.
Defined.

(** C6: [buildTime] is the clock reading of the factory call in every
    closure a session reaches, no hook call changes it, and every [load] of
    the reserved identifier in the session is answered with a module text
    that exports this one value. *)
Theorem buildTime_fixed (now : string) (calls : list Call) :
  buildTime (closure (session calls (qwikLogger now))) = now /\
  (forall call c, buildTime (closure (invoke call c)) = buildTime c) /\
  (forall i,
     nth_error calls i = Some (CallLoad resolvedVirtualModuleId) ->
     exists text c,
       nth_error (returned (session calls (qwikLogger now))) i = Some (Text (Some text)) /\
       text = lay_out (module_statements c) /\ buildTime c = now /\
       occurs (export_const "buildTime" (string_constant now)) text).
Proof.
  split; [apply (session_buildTime calls (qwikLogger now)) |].
  split; [exact invoke_buildTime |].
  intros i H.
  destruct (session_loads calls (qwikLogger now) i H) as (c & Hb & Hr).
  exists (lay_out (module_statements c)), c.
  repeat split; try assumption.
  apply occurs_lay_out. unfold module_statements. rewrite Hb.
  cbn [In qwikLogger buildTime]. tauto.
Qed.

Lemma buildTime_fixed_witness :
  let cfg := mkResolvedConfig [mkPluginEntry "a"] "production" "build" "/proj" in
  let calls := [CallConfig "build"; CallLoad resolvedVirtualModuleId;
                CallConfigResolved cfg; CallBuildStart;
                CallLoad resolvedVirtualModuleId; CallBuildEnd] in
  let replies := returned (session calls (qwikLogger "2025-06-01T12:00:00.000Z")) in
  let export := "export const buildTime = " ++ chr DQ ++ "2025-06-01T12:00:00.000Z"
                ++ chr DQ ++ ";" in
  (exists text c, nth_error replies 1 = Some (Text (Some text)) /\
     text = lay_out (module_statements c) /\
     buildTime c = "2025-06-01T12:00:00.000Z" /\ occurs export text) /\
  (exists text c, nth_error replies 4 = Some (Text (Some text)) /\
     text = lay_out (module_statements c) /\
     buildTime c = "2025-06-01T12:00:00.000Z" /\ occurs export text).
Proof.
  intros cfg calls replies export.
  destruct (buildTime_fixed "2025-06-01T12:00:00.000Z" calls) as (_ & _ & H).
  split; [apply (H 1) | apply (H 4)]; reflexivity.
Defined.

End GeneratedModule.

(** ** Mode capture and the hooks it gates *)

Section DevMode.

(** C3, as the specification words it, fails: an unrecognised command does
    not leave [isDev] at its prior value.  After [config] with [serve] has
    set [isDev], a call with [preview] clears it. *)
Lemma config_unrecognised_command_clears_isDev :
  let c := closure (config "serve" (qwikLogger "2025-06-01T12:00:00.000Z")) in
  "preview" <> "serve" /\ "preview" <> "build" /\
  isDev (closure (config "preview" c)) <> isDev c.
Proof. repeat split; discriminate. Qed.

(** C3, amended: [config] sets [isDev] exactly when the command is [serve];
    a second call with the same command changes nothing; and every other
    command, [build] or unrecognised, clears [isDev] whatever it was.  The
    hook returns normally and logs nothing. *)
Theorem config_spec (cmd : string) (c : Closure) :
  (isDev (closure (config cmd c)) = true <-> cmd = "serve") /\
  config cmd (closure (config cmd c)) = config cmd c /\
  (cmd <> "serve" -> isDev (closure (config cmd c)) = false) /\
  returned (config cmd c) = tt /\ console (config cmd c) = [].
Proof.
  rewrite config_outcome. cbn [closure returned console].
  repeat split.
  - cbn [set_isDev isDev]. apply String.eqb_eq.
  - cbn [set_isDev isDev]. intros ->. reflexivity.
  - cbn [set_isDev isDev]. intros H. now apply String.eqb_neq.
Qed.

Lemma config_spec_witness :
  let c := closure (config "serve" (qwikLogger "2025-06-01T12:00:00.000Z")) in
  isDev c = true /\
  isDev (closure (config "build" c)) = false /\
  isDev (closure (config "preview" c)) = false /\
  config "preview" (closure (config "preview" c)) = config "preview" c.
Proof.
  intros c. split; [|split; [|split]].
  - apply (config_spec "serve" (qwikLogger "2025-06-01T12:00:00.000Z")). reflexivity.
  - apply (config_spec "build" c). discriminate.
  - apply (config_spec "preview" c). discriminate.
  - apply (config_spec "preview" c).
Defined.

Lemma transform_dev (now code id : string) (c : Closure) :
  isDev c = true -> js_or_ts id ->
  transform now code id c = mkOutcome (Some (code ++ chr LF ++ marker now)) c [].
Proof.
  intros Hd Hid. apply test_dot_js_ts_iff in Hid.
  unfold transform, bind, read. cbn [returned closure console].
  rewrite Hd, Hid. reflexivity.
Qed.

Lemma marker_one_line (now : string) :
  iso8601 now = true -> has_char LF (marker now) = false.
Proof.
  intros H. unfold marker. rewrite has_char_append, (iso8601_one_line now H).
  reflexivity.
Qed.

Lemma lines_marked (code now : string) :
  iso8601 now = true ->
  lines (code ++ chr LF ++ marker now) = (lines code ++ [marker now])%list.
Proof.
  intros H. change (chr LF ++ marker now) with (String LF (marker now)).
  now rewrite lines_break, (lines_single _ (marker_one_line now H)).
Qed.

(** C4: outside dev mode [transform] returns [null]; in dev mode, for an id
    that ends in [.js] or [.ts], it returns the code, a line break and the
    marker comment with the clock's ISO-8601 reading, so that the lines of
    the result are the lines of the code and then the one marker line. *)
Theorem transform_spec (now code id : string) (c : Closure) :
  (isDev c = false -> returned (transform now code id c) = None) /\
  (isDev c = true -> js_or_ts id -> iso8601 now = true ->
     returned (transform now code id c)
       = Some (code ++ chr LF ++ "// Last updated: " ++ now) /\
     lines (code ++ chr LF ++ "// Last updated: " ++ now)
       = List.app (lines code) ["// Last updated: " ++ now]).
Proof.
  split.
  - intros H. unfold transform, bind, read. cbn [returned closure console].
    now rewrite H.
  - intros Hd Hid Hnow. rewrite (transform_dev now code id c Hd Hid).
    split; [reflexivity | exact (lines_marked code now Hnow)].
Qed.

Lemma transform_spec_witness :
  let dev := closure (config "serve" (qwikLogger "2025-06-01T12:00:00.000Z")) in
  let build := closure (config "build" (qwikLogger "2025-06-01T12:00:00.000Z")) in
  returned (transform "2025-06-01T12:00:05.250Z" "const x = 1;" "foo.ts" build) = None /\
  returned (transform "2025-06-01T12:00:05.250Z" "const x = 1;" "foo.ts" dev)
    = Some ("const x = 1;" ++ chr LF ++ "// Last updated: 2025-06-01T12:00:05.250Z") /\
  lines ("const x = 1;" ++ chr LF ++ "// Last updated: 2025-06-01T12:00:05.250Z")
    = ["const x = 1;"; "// Last updated: 2025-06-01T12:00:05.250Z"].
Proof.
  intros dev build.
  split.
  - apply (transform_spec "2025-06-01T12:00:05.250Z" "const x = 1;" "foo.ts" build).
    reflexivity.
  - apply (transform_spec "2025-06-01T12:00:05.250Z" "const x = 1;" "foo.ts" dev).
    + reflexivity.
    + exists "foo". now right.
    + reflexivity.
Defined.

(** The suffix test is case-sensitive and knows nothing of query strings. *)
Example transform_ignores_other_ids :
  let dev := closure (config "serve" (qwikLogger "2025-06-01T12:00:00.000Z")) in
  returned (transform "2025-06-01T12:00:05.250Z" "x" "foo.TS" dev) = None /\
  returned (transform "2025-06-01T12:00:05.250Z" "x" "foo.ts?v=1" dev) = None /\
  returned (transform "2025-06-01T12:00:05.250Z" "x" "foo.tsx" dev) = None.
Proof. repeat split. Qed.

(** C5: in dev mode a second [transform], applied to the result of the
    first, appends a second marker line: the text then ends in two marker
    lines and differs from the once-transformed text. *)
Theorem transform_twice (t1 t2 code id : string) (c : Closure) :
  isDev c = true -> js_or_ts id -> iso8601 t1 = true -> iso8601 t2 = true ->
  exists once twice,
    returned (transform t1 code id c) = Some once /\
    returned (transform t2 once id (closure (transform t1 code id c))) = Some twice /\
    twice = once ++ chr LF ++ "// Last updated: " ++ t2 /\
    lines twice
      = List.app (lines code) ["// Last updated: " ++ t1; "// Last updated: " ++ t2] /\
    twice <> once.
Proof.
  intros Hd Hid H1 H2.
  exists (code ++ chr LF ++ marker t1), ((code ++ chr LF ++ marker t1) ++ chr LF ++ marker t2).
  rewrite (transform_dev t1 code id c Hd Hid). cbn [returned closure].
  rewrite (transform_dev t2 _ id c Hd Hid). cbn [returned].
  assert (Hl : lines ((code ++ chr LF ++ marker t1) ++ chr LF ++ marker t2)
               = (lines code ++ [marker t1; marker t2])%list).
  { rewrite (lines_marked _ t2 H2), (lines_marked code t1 H1).
    now rewrite <- app_assoc. }
  repeat split; try assumption.
  intros E. apply (f_equal lines) in E.
  rewrite Hl, (lines_marked code t1 H1) in E.
  apply (f_equal (@length string)) in E. rewrite !length_app in E.
  cbn [length] in E. lia.
Qed.

Lemma transform_twice_witness :
  let dev := closure (config "serve" (qwikLogger "2025-06-01T12:00:00.000Z")) in
  exists once twice,
    returned (transform "2025-06-01T12:00:05.250Z" "const x = 1;" "foo.ts" dev) = Some once /\
    returned (transform "2025-06-01T12:00:09.750Z" once "foo.ts"
                (closure (transform "2025-06-01T12:00:05.250Z" "const x = 1;" "foo.ts" dev)))
      = Some twice /\
    twice = once ++ chr LF ++ "// Last updated: 2025-06-01T12:00:09.750Z" /\
    lines twice = ["const x = 1;"; "// Last updated: 2025-06-01T12:00:05.250Z";
                   "// Last updated: 2025-06-01T12:00:09.750Z"] /\
    twice <> once.
Proof.
  intros dev.
  apply (transform_twice "2025-06-01T12:00:05.250Z" "2025-06-01T12:00:09.750Z"
           "const x = 1;" "foo.ts" dev); try reflexivity.
  exists "foo". now right.
Defined.

End DevMode.

(** ** Logging hooks and the frame of every hook *)

Section Observers.

(** C8: [watchChange] passes nothing to [console.log] outside dev mode, and
    in dev mode makes one call of it, with a message that holds the clock
    reading, the event of the change and the id; the message is one line of
    text when none of the three holds a line break. *)
Theorem watchChange_spec (now id : string) (change : Change) (c : Closure) :
  (isDev c = false -> console (watchChange now id change c) = []) /\
  (isDev c = true ->
     exists line,
       console (watchChange now id change c) = [line] /\
       line = "[" ++ now ++ "] File " ++ event change ++ ": " ++ id /\
       occurs now line /\ occurs (event change) line /\ occurs id line /\
       (has_char LF now = false -> has_char LF (event change) = false ->
        has_char LF id = false -> lines line = [line])).
Proof.
  unfold watchChange, bind, read, console_log. cbn [returned closure console].
  split; intros H; rewrite H; cbn [negb console app]; [reflexivity |].
  eexists. split; [reflexivity |]. split; [reflexivity |].
  split; [| split; [| split]].
  - apply (occurs_intro "[" now).
  - apply (occurs_append_l _ "["), occurs_append_l, (occurs_intro "] File ").
  - do 5 apply occurs_append_l. apply occurs_refl.
  - intros Hn He Hi. apply lines_single.
    rewrite !has_char_append, Hn, He, Hi. reflexivity.
Qed.

Lemma watchChange_spec_witness :
  let dev := closure (config "serve" (qwikLogger "2025-06-01T12:00:00.000Z")) in
  let build := closure (config "build" (qwikLogger "2025-06-01T12:00:00.000Z")) in
  console (watchChange "2025-06-01T12:00:05.250Z" "/proj/src/a.ts" (mkChange "update") build)
    = [] /\
  exists line,
    console (watchChange "2025-06-01T12:00:05.250Z" "/proj/src/a.ts" (mkChange "update") dev)
      = [line] /\
    line = "[2025-06-01T12:00:05.250Z] File update: /proj/src/a.ts" /\
    occurs "2025-06-01T12:00:05.250Z" line /\ occurs "update" line /\
    occurs "/proj/src/a.ts" line /\ lines line = [line].
Proof.
  intros dev build. split.
  - apply (watchChange_spec "2025-06-01T12:00:05.250Z" "/proj/src/a.ts"
             (mkChange "update") build). reflexivity.
  - destruct (watchChange_spec "2025-06-01T12:00:05.250Z" "/proj/src/a.ts"
                (mkChange "update") dev) as [_ H].
    destruct (H eq_refl) as (line & Hc & Hl & Hn & He & Hi & Hone).
    exists line. repeat split; try assumption.
    apply Hone; reflexivity.
Defined.

(** C9: [handleHotUpdate] makes one call of [console.log], with a message
    that holds the file path (one line of text when the path holds no line
    break); it neither reads nor writes the closure, so the value of
    [isDev], and of every other variable, is without effect on what is
    logged. *)
Theorem handleHotUpdate_spec (file : string) (c : Closure) :
  console (handleHotUpdate file c) = ["[HMR] Reloading due to file change: " ++ file] /\
  occurs file ("[HMR] Reloading due to file change: " ++ file) /\
  (has_char LF file = false ->
   lines ("[HMR] Reloading due to file change: " ++ file)
   = ["[HMR] Reloading due to file change: " ++ file]) /\
  (forall b, console (handleHotUpdate file (set_isDev b c)) = console (handleHotUpdate file c)) /\
  (forall c', console (handleHotUpdate file c') = console (handleHotUpdate file c)) /\
  closure (handleHotUpdate file c) = c.
Proof.
  split; [reflexivity |]. split; [apply occurs_append_l, occurs_refl |].
  split; [| now repeat split].
  intros H. apply lines_single. rewrite has_char_append, H. reflexivity.
Qed.

Lemma handleHotUpdate_spec_witness :
  let dev := closure (config "serve" (qwikLogger "2025-06-01T12:00:00.000Z")) in
  let build := closure (config "build" (qwikLogger "2025-06-01T12:00:00.000Z")) in
  console (handleHotUpdate "/proj/src/a.ts" dev)
    = ["[HMR] Reloading due to file change: /proj/src/a.ts"] /\
  console (handleHotUpdate "/proj/src/a.ts" build)
    = console (handleHotUpdate "/proj/src/a.ts" dev) /\
  lines "[HMR] Reloading due to file change: /proj/src/a.ts"
    = ["[HMR] Reloading due to file change: /proj/src/a.ts"].
Proof.
  intros dev build.
  destruct (handleHotUpdate_spec "/proj/src/a.ts" dev) as (Hc & _ & Hl & _ & Hs & _).
  split; [exact Hc |]. split; [exact (Hs build) | exact (Hl eq_refl)].
Defined.

(** C10: [config] writes [isDev] and nothing else; [configResolved] writes
    the plugin names, the mode, the command and the root and nothing else;
    [resolveId], [load], [transform] and [watchChange] hand the closure back
    as they found it. *)
Theorem hooks_frame (c : Closure) :
  (forall cmd, same_metadata c (closure (config cmd c))) /\
  (forall cfg,
     isDev (closure (configResolved cfg c)) = isDev c /\
     buildTime (closure (configResolved cfg c)) = buildTime c) /\
  (forall source, closure (resolveId source c) = c) /\
  (forall id, closure (load id c) = c) /\
  (forall now code id, closure (transform now code id c) = c) /\
  (forall now id change, closure (watchChange now id change c) = c).
Proof.
  split; [intros cmd; unfold same_metadata; now repeat split |].
  split; [intros cfg; now split |].
  split; [intros; apply resolveId_closure |].
  split; [intros; apply load_closure |].
  split; [intros; apply transform_closure | intros; apply watchChange_closure].
Qed.

End Observers.

(** ** Beyond the claims: how the hooks compose *)

Section Composition.

Lemma prefix_append (a b : string) : String.prefix a (a ++ b) = true.
Proof.
  induction a as [|x a IH]; simpl.
  - now destruct b.
  - destruct (ascii_dec x x) as [_|N]; [exact IH | now elim N].
Qed.

Lemma transform_off (now code id : string) (c : Closure) :
  isDev c = false -> transform now code id c = mkOutcome None c [].
Proof.
  intros H. unfold transform, bind, read. cbn [returned closure console].
  now rewrite H.
Qed.

Lemma transform_other (now code id : string) (c : Closure) :
  test_dot_js_ts id = false -> transform now code id c = mkOutcome None c [].
Proof.
  intros H. unfold transform, bind, read. cbn [returned closure console].
  rewrite H. now destruct (isDev c).
Qed.

(** X1: [load] right after [configResolved] exports what that call was
    given: the names of the plugins in the order of [config.plugins], the
    mode, the command and the root; of the closure before the call only
    [buildTime] shows. *)
Theorem load_after_configResolved (cfg : ResolvedConfig) (c : Closure) :
  returned (load resolvedVirtualModuleId (closure (configResolved cfg c)))
  = Some (lay_out
      [ "export const getTimestamp = () => new Date().toISOString();";
        export_const "buildTime" (string_constant (buildTime c));
        export_const "pluginNames" (array_literal (map name (plugins cfg)));
        export_const "viteMode" (string_constant (mode cfg));
        export_const "viteCommand" (string_constant (command cfg));
        export_const "viteConfigRoot" (string_constant (root cfg)) ]).
Proof.
  rewrite load_resolved, configResolved_outcome. reflexivity.
Qed.

(** X2: the answer of [load] is a function of [buildTime] and the four
    descriptors: two closures that differ in [isDev] alone, a build and a
    dev session, get the same answer for every id. *)
Theorem load_ignores_isDev (id : string) (c c' : Closure) :
  same_metadata c c' -> returned (load id c') = returned (load id c).
Proof.
  intros (Hb & Hp & Hm & Hc & Hr).
  unfold load, bind, read. cbn [returned closure console].
  destruct (strict_eq id resolvedVirtualModuleId); cbn [returned ret];
    [| reflexivity].
  now rewrite Hb, Hp, Hm, Hc, Hr.
Qed.

Lemma load_ignores_isDev_witness :
  let cfg := mkResolvedConfig [mkPluginEntry "a"] "production" "build" "/proj" in
  let build := closure (configResolved cfg
                 (closure (config "build" (qwikLogger "2025-06-01T12:00:00.000Z")))) in
  let dev := closure (config "serve" build) in
  isDev build <> isDev dev /\
  returned (load resolvedVirtualModuleId dev) = returned (load resolvedVirtualModuleId build).
Proof.
  intros cfg build dev. split; [discriminate |].
  apply (load_ignores_isDev resolvedVirtualModuleId build dev).
  unfold same_metadata. repeat split.
Defined.

(** X3: the path of the virtual module through the hooks.  When [resolveId]
    answers a source, the source is [virtual:vite-info], [load] of the
    answer returns a text, and [transform] of that text under that id
    returns [null] in dev mode as in a build: the module never gets a
    marker.  The unresolved name is not loadable, and the resolved id does
    not resolve again. *)
Theorem virtual_module_pipeline (source now : string) (c : Closure) :
  match returned (resolveId source c) with
  | Some id =>
      source = virtualModuleId /\
      exists text, returned (load id c) = Some text /\
                   returned (transform now text id c) = None
  | None => source <> virtualModuleId
  end /\
  returned (load virtualModuleId c) = None /\
  returned (resolveId resolvedVirtualModuleId c) = None.
Proof.
  split; [| split; [now rewrite load_other | reflexivity]].
  unfold resolveId, strict_eq.
  destruct (String.eqb_spec source virtualModuleId) as [E|N]; cbn [returned ret].
  - split; [exact E |]. exists (lay_out (module_statements c)).
    rewrite load_resolved. split; [reflexivity |].
    now rewrite transform_other.
  - exact N.
Qed.

(** X4: [transform] answers with a text exactly when [isDev] is set and the
    id ends in [.js] or [.ts]; every text it answers with starts with the
    code it was given and goes on with the line break and the marker. *)
Theorem transform_answers (now code id : string) (c : Closure) :
  (returned (transform now code id c) <> None <-> isDev c = true /\ js_or_ts id) /\
  (forall out,
     returned (transform now code id c) = Some out ->
     out = code ++ chr LF ++ "// Last updated: " ++ now /\
     String.prefix code out = true).
Proof.
  destruct (isDev c) eqn:Hd.
  - destruct (test_dot_js_ts id) eqn:Hid.
    + pose proof (proj1 (test_dot_js_ts_iff id) Hid) as Hs.
      rewrite (transform_dev now code id c Hd Hs). cbn [returned].
      split; [split; [now split | discriminate] |].
      intros out [= <-]. split; [reflexivity | apply prefix_append].
    + rewrite (transform_other now code id c Hid). cbn [returned].
      split; [| discriminate].
      split; [congruence |].
      intros [_ Hs]. apply test_dot_js_ts_iff in Hs. congruence.
  - rewrite (transform_off now code id c Hd). cbn [returned].
    split; [| discriminate].
    split; [congruence | intros [H _]; discriminate H].
Qed.

Lemma log_file_names_console (bundle : list string) (c : Closure) :
  console (log_file_names bundle c) = map (fun fileName => " - " ++ fileName) bundle.
Proof.
  revert c. induction bundle as [|f rest IH]; intros c; [reflexivity |].
  cbn [log_file_names map]. unfold bind, console_log at 1.
  cbn [returned closure console]. now rewrite IH.
Qed.

(** X5: [generateBundle] logs its heading and then one message per file of
    the bundle, in the order of the enumeration: one message more than
    there are files, the heading alone for an empty bundle; the closure is
    as before. *)
Theorem generateBundle_console (bundle : list string) (c : Closure) :
  console (generateBundle bundle c)
    = (chr LF ++ "[vite-plugin-qwik-logger] Output bundle contains:")
      :: map (fun fileName => " - " ++ fileName) bundle /\
  length (console (generateBundle bundle c)) = S (length bundle) /\
  closure (generateBundle bundle c) = c.
Proof.
  assert (H : console (generateBundle bundle c)
              = (chr LF ++ "[vite-plugin-qwik-logger] Output bundle contains:")
                :: map (fun fileName => " - " ++ fileName) bundle).
  { unfold generateBundle, bind, console_log. cbn [returned closure console].
    now rewrite log_file_names_console. }
  split; [exact H |]. split.
  - rewrite H. cbn [length]. now rewrite length_map.
  - unfold generateBundle, bind, console_log. cbn [returned closure console].
    apply log_file_names_closure.
Qed.

End Composition.

(** ** Beyond the claims: whole sessions *)

Section Sessions.

Lemma session_cons_console (call : Call) (rest : list Call) (c : Closure) :
  console (session (call :: rest) c)
  = List.app (console (invoke call c))
             (console (session rest (closure (invoke call c)))).
Proof.
  cbn [session]. unfold bind at 1. cbn [returned closure console].
  unfold bind at 1. cbn [returned closure console ret].
  now rewrite app_nil_r.
Qed.

Lemma invoke_logs_only (call : Call) (c : Closure) :
  logs_only call = true -> closure (invoke call c) = c.
Proof.
  destruct call; intros H; try discriminate H;
    unfold invoke, void, bind; cbn [returned closure console]; try reflexivity.
  - apply watchChange_closure.
  - unfold generateBundle, bind, console_log. cbn [returned closure console].
    apply log_file_names_closure.
Qed.

Lemma invoke_answers_only (call : Call) (c : Closure) :
  answers_only call = true ->
  closure (invoke call c) = c /\ console (invoke call c) = [].
Proof.
  destruct call; intros H; try discriminate H;
    unfold invoke, text, bind; cbn [returned closure console ret].
  - destruct (resolveId_closure source c) as [-> ->]. now split.
  - destruct (load_closure id c) as [-> ->]. now split.
  - destruct (transform_closure now code id c) as [-> ->]. now split.
Qed.

Lemma invoke_isDev (call : Call) (c : Closure) :
  isDev (closure (invoke call c))
  = match call with
    | CallConfig cmd => strict_eq cmd "serve"
    | _ => isDev c
    end.
Proof.
  destruct call; unfold invoke, void, text, bind; cbn [returned closure console];
    try reflexivity.
  - now rewrite (proj1 (resolveId_closure _ _)).
  - now rewrite (proj1 (load_closure _ _)).
  - now rewrite (proj1 (transform_closure _ _ _ _)).
  - now rewrite watchChange_closure.
  - unfold generateBundle, bind, console_log. cbn [returned closure console].
    now rewrite log_file_names_closure.
Qed.

(** X6: after any sequence of hook calls [isDev] is what the last [config]
    call of the sequence made it, true for [serve] and false for any other
    command, and what it was before when the sequence has no [config]
    call: no other hook writes it. *)
Theorem session_isDev (calls : list Call) (c : Closure) :
  isDev (closure (session calls c))
  = match last_config calls with
    | Some cmd => strict_eq cmd "serve"
    | None => isDev c
    end.
Proof.
  revert c. induction calls as [|call rest IH]; intros c; [reflexivity |].
  rewrite (proj2 (session_cons call rest c)), IH. cbn [last_config].
  destruct (last_config rest); [reflexivity |].
  rewrite invoke_isDev. now destruct call.
Qed.

(** X7: after any sequence of hook calls the plugin names, the mode, the
    command and the root are those of the last [configResolved] call of the
    sequence, whatever came before it, and the old ones when the sequence
    has no such call. *)
Theorem session_metadata (calls : list Call) (c : Closure) :
  let c' := closure (session calls c) in
  match last_configResolved calls with
  | Some cfg =>
      pluginNames c' = map name (plugins cfg) /\ viteMode c' = mode cfg /\
      viteCommand c' = command cfg /\ viteConfigRoot c' = root cfg
  | None =>
      pluginNames c' = pluginNames c /\ viteMode c' = viteMode c /\
      viteCommand c' = viteCommand c /\ viteConfigRoot c' = viteConfigRoot c
  end.
Proof.
  cbv zeta. revert c. induction calls as [|call rest IH]; intros c.
  - now repeat split.
  - rewrite (proj2 (session_cons call rest c)). cbn [last_configResolved].
    specialize (IH (closure (invoke call c))).
    destruct (last_configResolved rest); [exact IH |].
    destruct IH as (-> & -> & -> & ->).
    destruct call;
      try (match goal with
           | |- context [invoke ?k c] =>
               exact (proj2 (invoke_same_metadata k c eq_refl))
           end).
    now repeat split.
Qed.

(** X8: the logging hooks ([watchChange], [buildStart], [buildEnd],
    [generateBundle], [closeBundle], [handleHotUpdate]) are without effect on
    the rest: a session with these calls left out ends in the same closure
    and gives the other calls the same answers. *)
Theorem loggers_do_not_interfere (calls : list Call) (c : Closure) :
  let kept := filter (fun call => negb (logs_only call)) calls in
  closure (session kept c) = closure (session calls c) /\
  returned (session kept c)
  = map snd (filter (fun p => negb (logs_only (fst p)))
                    (combine calls (returned (session calls c)))).
Proof.
  cbv zeta. revert c. induction calls as [|call rest IH]; intros c.
  - now split.
  - rewrite (proj1 (session_cons call rest c)), (proj2 (session_cons call rest c)).
    cbn [filter combine fst].
    destruct (logs_only call) eqn:L; cbn [negb].
    + rewrite (invoke_logs_only call c L). apply IH.
    + rewrite (proj1 (session_cons _ _ c)), (proj2 (session_cons _ _ c)).
      cbn [map snd]. destruct (IH (closure (invoke call c))) as [-> ->].
      now split.
Qed.

(** X9: the answering hooks ([resolveId], [load], [transform]) leave no
    trace: a session with these calls left out ends in the same closure
    and has logged the same messages. *)
Theorem answers_leave_no_trace (calls : list Call) (c : Closure) :
  let kept := filter (fun call => negb (answers_only call)) calls in
  closure (session kept c) = closure (session calls c) /\
  console (session kept c) = console (session calls c).
Proof.
  cbv zeta. revert c. induction calls as [|call rest IH]; intros c.
  - now split.
  - rewrite session_cons_console, (proj2 (session_cons call rest c)).
    cbn [filter].
    destruct (answers_only call) eqn:A; cbn [negb].
    + destruct (invoke_answers_only call c A) as [-> ->]. apply IH.
    + rewrite session_cons_console, (proj2 (session_cons _ _ c)).
      destruct (IH (closure (invoke call c))) as [-> ->]. now split.
Qed.

End Sessions.

(** ** Beyond the claims: the dev-mode gate over time *)

Section Gate.

Lemma never_serve_cons (call : Call) (rest : list Call) (c : Closure) :
  isDev c = false -> never_serve (call :: rest) = true ->
  isDev (closure (invoke call c)) = false /\ never_serve rest = true.
Proof.
  intros Hd H. rewrite invoke_isDev.
  destruct call; cbn [never_serve] in H; try (now split).
  apply andb_true_iff in H as [H1 H2]. apply negb_true_iff in H1. now split.
Qed.

Lemma watchChange_off (now id : string) (change : Change) (c : Closure) :
  isDev c = false -> watchChange now id change c = mkOutcome tt c [].
Proof.
  intros H. unfold watchChange, bind, read. cbn [returned closure console].
  now rewrite H.
Qed.

(** X10: the closure starts with [isDev] false, and as long as no [config]
    call has named the command [serve], [isDev] stays false, every
    [transform] call is answered with [null], and the console shows what it
    would show had [watchChange] never been called. *)
Theorem gated_until_serve (calls : list Call) (c : Closure) :
  isDev c = false -> never_serve calls = true ->
  isDev (closure (session calls c)) = false /\
  (forall i now code id,
     nth_error calls i = Some (CallTransform now code id) ->
     nth_error (returned (session calls c)) i = Some (Text None)) /\
  console (session calls c)
  = console (session (filter (fun call => negb (is_watchChange call)) calls) c).
Proof.
  revert c. induction calls as [|call rest IH]; intros c Hd Hn.
  - split; [exact Hd |]. split; [| reflexivity].
    intros [|i]; discriminate.
  - destruct (never_serve_cons call rest c Hd Hn) as [Hd' Hn'].
    destruct (IH (closure (invoke call c)) Hd' Hn') as (I1 & I2 & I3).
    rewrite (proj2 (session_cons call rest c)).
    split; [exact I1 |]. split.
    + intros [|i] now code id H; rewrite (proj1 (session_cons call rest c)).
      * cbn [nth_error] in H |- *. injection H as ->.
        unfold invoke, text, bind. cbn [returned].
        now rewrite (transform_off now code id c Hd).
      * cbn [nth_error] in H |- *. now apply (I2 i now code id).
    + rewrite session_cons_console, I3. cbn [filter].
      destruct (is_watchChange call) eqn:W; cbn [negb].
      * destruct call; try discriminate W.
        unfold invoke, void, bind. cbn [returned closure console].
        now rewrite (watchChange_off _ _ _ c Hd).
      * now rewrite session_cons_console.
Qed.

Lemma gated_until_serve_witness :
  let calls := [CallConfig "build";
                CallTransform "2025-06-01T12:00:05.250Z" "const x = 1;" "foo.ts";
                CallWatchChange "2025-06-01T12:00:06.000Z" "/proj/foo.ts" (mkChange "update");
                CallBuildStart] in
  let run := session calls (qwikLogger "2025-06-01T12:00:00.000Z") in
  isDev (closure run) = false /\
  nth_error (returned run) 1 = Some (Text None) /\
  console run = [chr LF ++ "[vite-plugin-qwik-logger] Building..."].
Proof.
  intros calls run.
  destruct (gated_until_serve calls (qwikLogger "2025-06-01T12:00:00.000Z")
              eq_refl eq_refl) as (H1 & H2 & H3).
  split; [exact H1 |]. split; [| exact H3].
  exact (H2 1 _ _ _ eq_refl).
Defined.

(** X11: in dev mode, for an id that ends in [.js] or [.ts], handing
    [transform] its own result again and again adds one marker line per
    call and touches nothing above: after the calls the text starts with
    the code, and its lines are the lines of the code and then the markers
    in the order of the calls. *)
Theorem retransform_lines (nows : list string) (code id : string) (c : Closure) :
  isDev c = true -> js_or_ts id -> forallb iso8601 nows = true ->
  exists out tail,
    returned (retransform nows code id c) = Some out /\
    out = code ++ tail /\
    lines out
    = List.app (lines code) (map (fun now => "// Last updated: " ++ now) nows).
Proof.
  intros Hd Hid. revert code.
  induction nows as [|now later IH]; intros code Hiso.
  - exists code, EmptyString. cbn [retransform map returned ret].
    now rewrite append_empty_r, app_nil_r.
  - cbn [forallb] in Hiso. apply andb_true_iff in Hiso as [Hnow Hlater].
    destruct (IH (code ++ chr LF ++ marker now) Hlater) as (out & tail & Hr & Ho & Hl).
    exists out, ((chr LF ++ marker now) ++ tail).
    cbn [retransform]. unfold bind at 1.
    rewrite (transform_dev now code id c Hd Hid). cbn [returned closure].
    split; [exact Hr |]. split.
    + rewrite Ho. now rewrite !append_assoc.
    + rewrite Hl, (lines_marked code now Hnow), <- app_assoc. reflexivity.
Qed.

Lemma retransform_lines_witness :
  let dev := closure (config "serve" (qwikLogger "2025-06-01T12:00:00.000Z")) in
  exists out tail,
    returned (retransform ["2025-06-01T12:00:05.250Z"; "2025-06-01T12:00:09.750Z";
                           "2025-06-01T12:00:12.000Z"] "const x = 1;" "foo.ts" dev)
      = Some out /\
    out = "const x = 1;" ++ tail /\
    lines out = ["const x = 1;"; "// Last updated: 2025-06-01T12:00:05.250Z";
                 "// Last updated: 2025-06-01T12:00:09.750Z";
                 "// Last updated: 2025-06-01T12:00:12.000Z"].
Proof.
  intros dev.
  exact (retransform_lines
           ["2025-06-01T12:00:05.250Z"; "2025-06-01T12:00:09.750Z";
            "2025-06-01T12:00:12.000Z"] "const x = 1;" "foo.ts" dev
           eq_refl (ex_intro _ "foo" (or_intror eq_refl)) eq_refl).
Defined.

End Gate.

(** ** Beyond the claims: the declaration file and the generated module *)

Section Declarations.

Ltac served st rest :=
  exists st, rest;
  split; [unfold module_statements; cbn [In]; tauto | reflexivity].

(** X12: what [virtual-modules.d.ts] declares, the plugin serves.  The
    declared module name is the one source [resolveId] answers, and in
    every closure the text that [load] returns for the answer holds an
    export statement for each declared name. *)
Theorem declared_exports_are_served (c : Closure) (ident : string) :
  In ident declared_exports ->
  exists id text,
    returned (resolveId declared_module c) = Some id /\
    returned (load id c) = Some text /\
    occurs ("export const " ++ ident ++ " = ") text.
Proof.
  intros H. exists resolvedVirtualModuleId, (lay_out (module_statements c)).
  split; [reflexivity |]. rewrite load_resolved. split; [reflexivity |].
  assert (exists st rest, In st (module_statements c)
                          /\ st = ("export const " ++ ident ++ " = ") ++ rest)
    as (st & rest & Hin & ->).
  { cbn [declared_exports In] in H.
    destruct H as [<-|[<-|[<-|[<-|[<-|[<-|[]]]]]]].
    - served (export_const "buildTime" (string_constant (buildTime c)))
             (string_constant (buildTime c) ++ ";").
    - served "export const getTimestamp = () => new Date().toISOString();"
             "() => new Date().toISOString();".
    - served (export_const "pluginNames" (array_literal (pluginNames c)))
             (array_literal (pluginNames c) ++ ";").
    - served (export_const "viteMode" (string_constant (viteMode c)))
             (string_constant (viteMode c) ++ ";").
    - served (export_const "viteCommand" (string_constant (viteCommand c)))
             (string_constant (viteCommand c) ++ ";").
    - served (export_const "viteConfigRoot" (string_constant (viteConfigRoot c)))
             (string_constant (viteConfigRoot c) ++ ";"). }
  destruct (occurs_lay_out _ _ Hin) as (before & after & E).
  exists before, (rest ++ after). rewrite E. now rewrite !append_assoc.
Qed.

Lemma declared_exports_are_served_witness :
  exists id text,
    returned (resolveId declared_module (qwikLogger "2025-06-01T12:00:00.000Z")) = Some id /\
    returned (load id (qwikLogger "2025-06-01T12:00:00.000Z")) = Some text /\
    occurs "export const getTimestamp = " text.
Proof.
  apply (declared_exports_are_served (qwikLogger "2025-06-01T12:00:00.000Z")
           "getTimestamp").
  cbn [declared_exports In]. tauto.
Defined.

End Declarations.
